(** * ForestFireMLModel: the scoring endpoint of [app.py]

    A shallow embedding of the request pipeline of [app.py]
    ([estimate_fire_indexes], [score_to_bucket], [encode_month_day] and the
    [/predict] handler) together with the properties its specification
    states about it.

    Conventions of the embedding.
    - A Python [float] is an exact rational extended with the two infinities
      and NaN ([pyfloat]).  Binary rounding of the float literals and of the
      arithmetic is abstracted away; NaN propagation and saturation of the
      infinities under [np.clip] are kept.
    - A value decoded from the JSON body is a [pyval]; a decoded object is an
      association list and [dict.get] returns the binding of the key.
    - A Python exception is a constructor of [exn]; a computation that may
      raise returns a [res].
    - What the module loads or reads from outside the repository (the two
      label encoders, the trained model, the UTC clock) and the two string
      parsers of the Python built-ins [int] and [float] are the fields of an
      [Env]. *)

From Stdlib Require Import ZArith QArith Qround Bool List String Ascii Lia Lqa.
Import ListNotations.
#[local] Set Warnings "-register-all".
Local Open Scope string_scope.
Local Open Scope Z_scope.

(* ================================================================== *)
(** ** Python values *)

Inductive pyfloat : Type :=
| FFin (q : Q)          (* a finite float *)
| FInf (negative : bool) (* inf, -inf *)
| FNaN.

Inductive pyval : Type :=
| VNone
| VBool (b : bool)
| VInt (z : Z)
| VFloat (f : pyfloat)
| VStr (s : string)
| VList (items : list pyval)
| VDict (items : list (string * pyval)).

Inductive exn : Type :=
| TypeError
| ValueError
| OverflowError
| AttributeError
| BadRequest   (* raised by [request.get_json] on a body that is not JSON *)
| ModelError.  (* whatever [model.predict] raises *)

Inductive res (A : Type) : Type :=
| Ret (a : A)
| Raise (e : exn).
Arguments Ret {A} a.
Arguments Raise {A} e.

Definition res_bind {A B : Type} (r : res A) (k : A -> res B) : res B :=
  match r with
  | Ret a => k a
  | Raise e => Raise e
  end.

Notation "x <- r ;; k" := (res_bind r (fun x => k))
  (at level 61, r at next level, right associativity).

(* ================================================================== *)
(** ** Float arithmetic, as far as [app.py] uses it *)

Definition Qsign_neg (q : Q) : bool := Qnum q <? 0.
Definition Qis_zero (q : Q) : bool := Qnum q =? 0.

Definition fneg (x : pyfloat) : pyfloat :=
  match x with
  | FFin q => FFin (- q)
  | FInf s => FInf (negb s)
  | FNaN => FNaN
  end.

Definition fadd (x y : pyfloat) : pyfloat :=
  match x, y with
  | FNaN, _ | _, FNaN => FNaN
  | FFin a, FFin b => FFin (a + b)
  | FInf s, FFin _ | FFin _, FInf s => FInf s
  | FInf s, FInf t => if Bool.eqb s t then FInf s else FNaN
  end.

Definition fsub (x y : pyfloat) : pyfloat := fadd x (fneg y).

Definition fmul (x y : pyfloat) : pyfloat :=
  match x, y with
  | FNaN, _ | _, FNaN => FNaN
  | FFin a, FFin b => FFin (a * b)
  | FInf s, FFin b | FFin b, FInf s =>
      if Qis_zero b then FNaN else FInf (xorb s (Qsign_neg b))
  | FInf s, FInf t => FInf (xorb s t)
  end.

(** Every divisor in [app.py] is a non-zero literal, so Python's
    [ZeroDivisionError] cannot occur; a zero divisor is given the IEEE
    result. *)
Definition fdiv (x y : pyfloat) : pyfloat :=
  match x, y with
  | FNaN, _ | _, FNaN => FNaN
  | FFin a, FFin b =>
      if Qis_zero b
      then (if Qis_zero a then FNaN else FInf (Qsign_neg a))
      else FFin (a / b)
  | FFin _, FInf _ => FFin 0
  | FInf s, FFin b => FInf (xorb s (Qsign_neg b))
  | FInf _, FInf _ => FNaN
  end.

Definition Qltb (a b : Q) : bool := negb (Qle_bool b a).

(** [minimum(maximum(q, lo), hi)] on rationals. *)
Definition Qclip (q lo hi : Q) : Q :=
  let m := if Qltb q lo then lo else q in
  if Qltb hi m then hi else m.

(** [np.clip(x, lo, hi)] for finite bounds: [minimum(maximum(x, lo), hi)],
    with NaN propagated. *)
Definition np_clip (x : pyfloat) (lo hi : Q) : pyfloat :=
  match x with
  | FNaN => FNaN
  | FInf true => FFin (if Qltb hi lo then hi else lo)
  | FInf false => FFin hi
  | FFin q => FFin (Qclip q lo hi)
  end.

(** Rounding of a rational to the nearest integer, ties to the even one. *)
Definition round_half_even (q : Q) : Z :=
  let n := Qnum q in
  let d := Zpos (Qden q) in
  let fl := n / d in
  let r := n mod d in
  if 2 * r <? d then fl
  else if d <? 2 * r then fl + 1
  else if Z.even fl then fl else fl + 1.

(** Two decimal places, ties to even. *)
Definition Qround2 (q : Q) : Q := round_half_even (q * 100) # 100.

(** [round(x, 2)]; NaN and the infinities are returned as they are. *)
Definition round2 (x : pyfloat) : pyfloat :=
  match x with
  | FFin q => FFin (Qround2 q)
  | other => other
  end.

(** The largest magnitude an [int] can have and still convert to a float:
    beyond it [float(int)] raises [OverflowError]. *)
Definition float_int_limit : Z := 2 ^ 1024 - 2 ^ 970.

(** Truncation toward zero, as [int(float)] does. *)
Definition Qtrunc (q : Q) : Z := Z.quot (Qnum q) (Zpos (Qden q)).

(* ================================================================== *)
(** ** The environment of the module *)

(** An argument of [model.predict] or of [estimate_fire_indexes], recorded
    when the call is made. *)
Inductive event : Type :=
| CallEstimator (temp rh wind rain : pyfloat)
| CallModel (features : list pyval).

Record Env : Type := {
  (** [int(s)] for a string [s]: [None] when Python raises [ValueError]. *)
  int_of_str : string -> option Z;
  (** [float(s)] for a string [s]: [None] when Python raises [ValueError]. *)
  float_of_str : string -> option pyfloat;
  (** [le_month.classes_] and [le_day.classes_]. *)
  le_month : list string;
  le_day : list string;
  (** [int(model.predict([features])[0])]: [None] when either raises. *)
  model_predict : list pyval -> option Z;
  (** [datetime.datetime.utcnow()]: month 1..12, weekday 0 (Monday)..6. *)
  utc_month : nat;
  utc_weekday : nat
}.

(** [strftime("%b")] and [strftime("%a")] in the C locale. *)
Definition strftime_b (month : nat) : string :=
  nth (month - 1)
      ["Jan"; "Feb"; "Mar"; "Apr"; "May"; "Jun";
       "Jul"; "Aug"; "Sep"; "Oct"; "Nov"; "Dec"] "".

Definition strftime_a (weekday : nat) : string :=
  nth weekday ["Mon"; "Tue"; "Wed"; "Thu"; "Fri"; "Sat"; "Sun"] "".

Definition lower_ascii (c : ascii) : ascii :=
  let n := nat_of_ascii c in
  if (65 <=? n)%nat && (n <=? 90)%nat then ascii_of_nat (n + 32) else c.

Fixpoint lower (s : string) : string :=
  match s with
  | EmptyString => EmptyString
  | String c rest => String (lower_ascii c) (lower rest)
  end.

(** The position of a label in [classes_]. *)
Fixpoint index_of (label : string) (classes : list string) : option Z :=
  match classes with
  | [] => None
  | c :: rest =>
      if String.eqb label c then Some 0
      else option_map Z.succ (index_of label rest)
  end.

(** [dict.get]: the binding of the key in a decoded object. *)
Fixpoint assoc (k : string) (items : list (string * pyval)) : option pyval :=
  match items with
  | [] => None
  | (k', v) :: rest => if String.eqb k k' then Some v else assoc k rest
  end.

Definition get_or (items : list (string * pyval)) (k : string)
    (default : pyval) : pyval :=
  match assoc k items with
  | Some v => v
  | None => default
  end.

Definition is_none (v : pyval) : bool :=
  match v with
  | VNone => true
  | _ => false
  end.

Declare Scope pyfloat_scope.
Delimit Scope pyfloat_scope with F.
Bind Scope pyfloat_scope with pyfloat.
Infix "+" := fadd : pyfloat_scope.
Infix "-" := fsub : pyfloat_scope.
Infix "*" := fmul : pyfloat_scope.
Infix "/" := fdiv : pyfloat_scope.

(* ================================================================== *)
(** ** Helpers of [app.py] *)

(** [estimate_fire_indexes(temp, rh, wind, rain)]. *)
Definition estimate_fire_indexes (temp rh wind rain : pyfloat)
  : pyfloat * pyfloat * pyfloat * pyfloat :=
  let temp := np_clip temp (-10) 60 in
  let rh := np_clip rh 0 100 in
  let wind := np_clip wind 0 50 in
  let rain := np_clip rain 0 500 in
  let FFMC :=
    np_clip (FFin 20 + (temp * FFin 1.6) - (rh * FFin 0.15)
             + (wind * FFin 0.6) - (rain * FFin 0.1))%F 18.7 96.2 in
  let DMC :=
    np_clip (FFin 1 + (FFin 100 - rh) * (temp / FFin 30)
             + wind * FFin 0.5 - rain * FFin 0.2)%F 1.1 291.3 in
  let DC :=
    np_clip (FFin 10 + (FFin 100 - rh) * (temp / FFin 20)
             + wind * FFin 0.7 - rain * FFin 0.05)%F 7.9 860.6 in
  let ISI :=
    np_clip ((wind * FFin 0.8) + (FFMC / FFin 30))%F 0 56.1 in
  (round2 FFMC, round2 DMC, round2 DC, round2 ISI).

Section App.

Variable E : Env.

(** The built-in [int(v)]. *)
Definition py_int (v : pyval) : res Z :=
  match v with
  | VBool b => Ret (if b then 1 else 0)
  | VInt z => Ret z
  | VFloat (FFin q) => Ret (Qtrunc q)
  | VFloat (FInf _) => Raise OverflowError
  | VFloat FNaN => Raise ValueError
  | VStr s =>
      match int_of_str E s with
      | Some z => Ret z
      | None => Raise ValueError
      end
  | VNone | VList _ | VDict _ => Raise TypeError
  end.

(** The built-in [float(v)]. *)
Definition py_float (v : pyval) : res pyfloat :=
  match v with
  | VBool b => Ret (FFin (if b then 1 else 0))
  | VInt z =>
      if Z.abs z <? float_int_limit then Ret (FFin (inject_Z z))
      else Raise OverflowError
  | VFloat f => Ret f
  | VStr s =>
      match float_of_str E s with
      | Some f => Ret f
      | None => Raise ValueError
      end
  | VNone | VList _ | VDict _ => Raise TypeError
  end.

(** [data.get(key, default)]; only a decoded object has the method. *)
Definition dict_get (data : pyval) (key : string) (default : pyval)
  : res pyval :=
  match data with
  | VDict items => Ret (get_or items key default)
  | _ => Raise AttributeError
  end.

(** [score_to_bucket(score)]. *)
Definition score_to_bucket (score : pyval) : res (string * string) :=
  s <- py_int score ;;
  if s <=? 3 then Ret ("Low", "green")
  else if s <=? 6 then Ret ("Medium", "yellow")
  else if s <=? 8 then Ret ("High", "orange")
  else Ret ("Extreme", "red").

(** [int(le.transform([label])[0])]: a label that is not among the classes
    makes [transform] raise [ValueError]. *)
Definition transform (classes : list string) (label : string) : res Z :=
  match index_of label classes with
  | Some i => Ret i
  | None => Raise ValueError
  end.

(** [encode_month_day(month, day)]. *)
Definition encode_month_day (month day : pyval) : res (Z * Z) :=
  month_enc <- match month with
               | VStr s => transform (le_month E) s
               | _ => py_int month
               end ;;
  day_enc <- match day with
             | VStr s => transform (le_day E) s
             | _ => py_int day
             end ;;
  Ret (month_enc, day_enc).

(* ------------------------------------------------------------------ *)
(** *** The [/predict] handler *)

(** The JSON body of a 200 response. *)
Record response : Type := {
  score : Z;
  bucket : string;
  color : string;
  features_used : list (string * pyval)
}.

(** What a call of the handler ends in: a 200 response, a response built by
    one of its [except] clauses, or an exception that leaves the handler. *)
Inductive outcome : Type :=
| Json200 (body : response)
| JsonError (status : Z) (error : string) (details : exn)
| Unhandled (e : exn).

(** The handler threads the log of calls (most recent first) and may return
    early. *)
Definition handler (A : Type) : Type :=
  list event -> (outcome + A) * list event.

Definition hret {A : Type} (a : A) : handler A :=
  fun log => (inr a, log).

Definition hbind {A B : Type} (m : handler A) (k : A -> handler B)
  : handler B :=
  fun log =>
    match m log with
    | (inl o, log') => (inl o, log')
    | (inr a, log') => k a log'
    end.

(** A statement outside every [try]: an exception leaves the handler. *)
Definition uncaught {A : Type} (r : res A) : handler A :=
  fun log =>
    match r with
    | Ret a => (inr a, log)
    | Raise e => (inl (Unhandled e), log)
    end.

(** [try: r  except Exception as e: return h(e)]. *)
Definition try_except {A : Type} (r : res A) (h : exn -> outcome)
  : handler A :=
  fun log =>
    match r with
    | Ret a => (inr a, log)
    | Raise e => (inl (h e), log)
    end.

Definition emit (ev : event) : handler unit :=
  fun log => (inr tt, ev :: log).

Notation "x <~ m ; k" := (hbind m (fun x => k))
  (at level 61, m at next level, right associativity).
Notation "' p <~ m ; k" := (hbind m (fun x => let 'p := x in k))
  (at level 61, p pattern, m at next level, right associativity).

Definition msg_invalid_json : string := "Invalid JSON".
Definition msg_encoding : string :=
  "Month/day encoding failed. Provide month/day as the same strings used during training (e.g. 'aug','sun') or numeric encodings.".
Definition msg_missing_met : string :=
  "Missing meteorological inputs for index estimation. Provide either FFMC,DMC,DC,ISI OR provide temp,RH,wind,rain.".
Definition msg_model : string := "Model prediction failed".

(** Lines 109-117: [month] and [day] as they are handed to
    [encode_month_day]. *)
Definition month_day_inputs (month day : pyval) : pyval * pyval :=
  if is_none month || is_none day
  then (VStr (lower (strftime_b (utc_month E))),
        VStr (lower (strftime_a (utc_weekday E))))
  else (month, day).

(** Line 132: [None in (ffmc, dmc, dc, isi)]. *)
Definition none_in (ffmc dmc dc isi : pyval) : bool :=
  is_none ffmc || is_none dmc || is_none dc || is_none isi.

(** Lines 135-138, the body of the [try]. *)
Definition read_weather (data : pyval)
  : res (pyfloat * pyfloat * pyfloat * pyfloat) :=
  temp <- (v <- dict_get data "temp" VNone ;; py_float v) ;;
  rh <- (v <- dict_get data "RH" VNone ;; py_float v) ;;
  wind <- (v <- dict_get data "wind" VNone ;; py_float v) ;;
  rain <- (v <- dict_get data "rain" (VFloat (FFin 0)) ;; py_float v) ;;
  Ret (temp, rh, wind, rain).

(** Lines 151-164, the list display. *)
Definition build_features (X_val Y_val month_enc day_enc : Z)
    (ffmc dmc dc isi : pyval) (temp_val rh_val wind_val rain_val : pyfloat)
  : res (list pyval) :=
  f0 <- py_float (VInt X_val) ;;
  f1 <- py_float (VInt Y_val) ;;
  f2 <- py_int (VInt month_enc) ;;
  f3 <- py_int (VInt day_enc) ;;
  f4 <- py_float ffmc ;;
  f5 <- py_float dmc ;;
  f6 <- py_float dc ;;
  f7 <- py_float isi ;;
  f8 <- py_float (VFloat temp_val) ;;
  f9 <- py_float (VFloat rh_val) ;;
  f10 <- py_float (VFloat wind_val) ;;
  f11 <- py_float (VFloat rain_val) ;;
  Ret [VFloat f0; VFloat f1; VInt f2; VInt f3;
       VFloat f4; VFloat f5; VFloat f6; VFloat f7;
       VFloat f8; VFloat f9; VFloat f10; VFloat f11].

(** [predict()] from line 104 on, [data] being the decoded body. *)
Definition predict_data (data : pyval) : handler response :=
  X_val <~ uncaught (v <- dict_get data "X" (VInt 5) ;; py_int v) ;
  Y_val <~ uncaught (v <- dict_get data "Y" (VInt 5) ;; py_int v) ;
  month <~ uncaught (dict_get data "month" VNone) ;
  day <~ uncaught (dict_get data "day" VNone) ;
  '(month, day) <~ hret (month_day_inputs month day) ;
  '(month_enc, day_enc) <~
    try_except (encode_month_day month day) (JsonError 400 msg_encoding) ;
  ffmc <~ uncaught (dict_get data "FFMC" VNone) ;
  dmc <~ uncaught (dict_get data "DMC" VNone) ;
  dc <~ uncaught (dict_get data "DC" VNone) ;
  isi <~ uncaught (dict_get data "ISI" VNone) ;
  '(ffmc, dmc, dc, isi) <~
    (if none_in ffmc dmc dc isi then
       '(temp, rh, wind, rain) <~
         try_except (read_weather data) (JsonError 400 msg_missing_met) ;
       _ <~ emit (CallEstimator temp rh wind rain) ;
       let '(ffmc, dmc, dc, isi) := estimate_fire_indexes temp rh wind rain in
       hret (VFloat ffmc, VFloat dmc, VFloat dc, VFloat isi)
     else hret (ffmc, dmc, dc, isi)) ;
  temp_val <~ uncaught (v <- dict_get data "temp" (VFloat (FFin 20)) ;; py_float v) ;
  rh_val <~ uncaught (v <- dict_get data "RH" (VFloat (FFin 40)) ;; py_float v) ;
  wind_val <~ uncaught (v <- dict_get data "wind" (VFloat (FFin 1)) ;; py_float v) ;
  rain_val <~ uncaught (v <- dict_get data "rain" (VFloat (FFin 0)) ;; py_float v) ;
  features <~
    uncaught (build_features X_val Y_val month_enc day_enc
                ffmc dmc dc isi temp_val rh_val wind_val rain_val) ;
  _ <~ emit (CallModel features) ;
  pred <~
    try_except (match model_predict E features with
                | Some p => Ret p
                | None => Raise ModelError
                end)
               (JsonError 500 msg_model) ;
  '(bucket, color) <~ uncaught (score_to_bucket (VInt pred)) ;
  hret {| score := pred;
          bucket := bucket;
          color := color;
          features_used :=
            [("X", VInt X_val); ("Y", VInt Y_val);
             ("month_enc", VInt month_enc); ("day_enc", VInt day_enc);
             ("FFMC", ffmc); ("DMC", dmc); ("DC", dc); ("ISI", isi);
             ("temp", VFloat temp_val); ("RH", VFloat rh_val);
             ("wind", VFloat wind_val); ("rain", VFloat rain_val)] |}.

(** [predict()]: [body] is what [request.get_json(force=True)] returns, or
    [None] when it raises. *)
Definition predict (body : option pyval) (log : list event)
  : outcome * list event :=
  match body with
  | None => (JsonError 400 msg_invalid_json BadRequest, log)
  | Some data =>
      match predict_data data log with
      | (inl o, log') => (o, log')
      | (inr r, log') => (Json200 r, log')
      end
  end.

End App.

(* ================================================================== *)
(** ** A concrete environment *)

Module Demo.

Definition digit_of (c : ascii) : option Z :=
  let n := nat_of_ascii c in
  if (48 <=? n)%nat && (n <=? 57)%nat then Some (Z.of_nat (n - 48)) else None.

(** Digits with at most one point; at least one digit. *)
Fixpoint decimal (s : string) (acc : Z) (scale : positive)
    (after_point any : bool) : option Q :=
  match s with
  | EmptyString => if any then Some (acc # scale) else None
  | String c rest =>
      if Ascii.eqb c "."
      then (if after_point then None else decimal rest acc scale true any)
      else match digit_of c with
           | Some d =>
               decimal rest (10 * acc + d)
                       (if after_point then (10 * scale)%positive else scale)
                       after_point true
           | None => None
           end
  end.

Definition signed {A : Type} (parse : string -> option A) (neg : A -> A)
    (s : string) : option A :=
  match s with
  | String "-" rest => option_map neg (parse rest)
  | String "+" rest => parse rest
  | _ => parse s
  end.

(** The decimal fragment of what [float(s)] accepts: an optional sign, then
    [nan], [inf] or digits with at most one point (no exponent, underscores
    or surrounding blanks). *)
Definition parse_float (s : string) : option pyfloat :=
  signed (fun body =>
            if String.eqb (lower body) "nan" then Some FNaN
            else if String.eqb (lower body) "inf" then Some (FInf false)
            else option_map FFin (decimal body 0 1 false false))
         fneg s.

(** The decimal fragment of what [int(s)] accepts: an optional sign, then
    digits. *)
Definition parse_int (s : string) : option Z :=
  signed (fun body =>
            match decimal body 0 1 true false with
            | Some q => Some (Qnum q)
            | None => None
            end)
         Z.opp s.

(** A stand-in for the trained model: it wants twelve features. *)
Definition model (features : list pyval) : option Z :=
  if (List.length features =? 12)%nat then Some 7 else None.

(** Encoders fitted on the twelve month and seven weekday abbreviations
    ([classes_] is sorted); the clock reads a Tuesday in November. *)
Definition env : Env := {|
  int_of_str := parse_int;
  float_of_str := parse_float;
  le_month := ["apr"; "aug"; "dec"; "feb"; "jan"; "jul";
               "jun"; "mar"; "may"; "nov"; "oct"; "sep"];
  le_day := ["fri"; "mon"; "sat"; "sun"; "thu"; "tue"; "wed"];
  model_predict := model;
  utc_month := 11;
  utc_weekday := 1
|}.

(** Requests used as examples. *)
Definition num (q : Q) : pyval := VFloat (FFin q).

(** Weather only: the indexes are estimated. *)
Definition weather_request : pyval :=
  VDict [("X", VInt 4); ("Y", VInt 5);
         ("month", VStr "aug"); ("day", VStr "sun");
         ("temp", num 33.1); ("RH", VInt 20);
         ("wind", num 6.7); ("rain", num 0.0)].

(** The four indexes and nothing else. *)
Definition indexes_request : pyval :=
  VDict [("FFMC", num 85.0); ("DMC", num 50.0);
         ("DC", num 300.0); ("ISI", num 10.0)].

(** An FFMC far above 96.2. *)
Definition large_ffmc_request : pyval :=
  VDict [("FFMC", VInt 1000); ("DMC", VInt 50);
         ("DC", VInt 300); ("ISI", VInt 10)].

(** A month without a day. *)
Definition month_only_request : pyval :=
  VDict [("month", VStr "aug");
         ("temp", VInt 20); ("RH", VInt 40); ("wind", VInt 1)].

(** A month number no encoder class has. *)
Definition month_99_request : pyval :=
  VDict [("month", VInt 99); ("day", VInt 0);
         ("temp", VInt 20); ("RH", VInt 40); ("wind", VInt 1)].

(** An unknown month label, with and without a day. *)
Definition unknown_month_request : pyval :=
  VDict [("month", VStr "xyz"); ("day", VStr "sun");
         ("temp", VInt 20); ("RH", VInt 40); ("wind", VInt 1)].

Definition unknown_month_no_day_request : pyval :=
  VDict [("month", VStr "xyz");
         ("temp", VInt 20); ("RH", VInt 40); ("wind", VInt 1)].

(** Good temperature, humidity and wind; a rain that is not a number. *)
Definition bad_rain_request : pyval :=
  VDict [("month", VStr "aug"); ("day", VStr "sun");
         ("temp", VInt 20); ("RH", VInt 40); ("wind", VInt 1);
         ("rain", VStr "abc")].

(** Fields that are not numbers, outside every [try]. *)
Definition bad_X_request : pyval := VDict [("X", VStr "abc")].

Definition bad_ffmc_request : pyval :=
  VDict [("month", VStr "aug"); ("day", VStr "sun");
         ("FFMC", VStr "abc"); ("DMC", VInt 50);
         ("DC", VInt 300); ("ISI", VInt 10)].

End Demo.

(* ================================================================== *)
(** ** Vocabulary of the statements *)

(** A textual label that is not among the classes of an encoder. *)
Definition unknown_label (classes : list string) (v : pyval) : bool :=
  match v with
  | VStr s =>
      match index_of s classes with
      | Some _ => false
      | None => true
      end
  | _ => false
  end.

Definition is_ret {A : Type} (r : res A) : bool :=
  match r with
  | Ret _ => true
  | Raise _ => false
  end.

(** The order of the four buckets: Low < Medium < High < Extreme. *)
Definition bucket_rank (bucket : string) : Z :=
  if String.eqb bucket "Low" then 0
  else if String.eqb bucket "Medium" then 1
  else if String.eqb bucket "High" then 2
  else if String.eqb bucket "Extreme" then 3
  else -1.

(** The pairs [score_to_bucket] can return. *)
Definition buckets : list (string * string) :=
  [("Low", "green"); ("Medium", "yellow");
   ("High", "orange"); ("Extreme", "red")].

(* ================================================================== *)
(** ** The documented ranges *)

(** A finite float between two bounds; NaN and the infinities are not. *)
Definition within (lo hi : Q) (x : pyfloat) : bool :=
  match x with
  | FFin q => Qle_bool lo q && Qle_bool q hi
  | _ => false
  end.

Definition ffmc_ok : pyfloat -> bool := within 18.7 96.2.
Definition dmc_ok : pyfloat -> bool := within 1.1 291.3.
Definition dc_ok : pyfloat -> bool := within 7.9 860.6.
Definition isi_ok : pyfloat -> bool := within 0 56.1.

Definition float_at (n : nat) (features : list pyval) : pyfloat :=
  match nth n features VNone with
  | VFloat f => f
  | _ => FNaN
  end.

(** The four index slots of a feature vector hold values of their ranges. *)
Definition indexes_in_range (features : list pyval) : bool :=
  ffmc_ok (float_at 4 features) && dmc_ok (float_at 5 features)
  && dc_ok (float_at 6 features) && isi_ok (float_at 7 features).

Definition not_nan (x : pyfloat) : bool :=
  match x with
  | FNaN => false
  | _ => true
  end.

(* ================================================================== *)
(** ** Clamping and rounding *)

Lemma Qltb_true (a b : Q) : Qltb a b = true <-> (a < b)%Q.
Proof.
  unfold Qltb. rewrite negb_true_iff.
  split; intro H.
  - apply Qnot_le_lt. intro L. apply Qle_bool_iff in L. congruence.
  - destruct (Qle_bool b a) eqn:L; [|reflexivity].
    apply Qle_bool_iff in L. exfalso. apply (Qlt_not_le _ _ H L).
Qed.

Lemma Qltb_false (a b : Q) : Qltb a b = false <-> (b <= a)%Q.
Proof.
  unfold Qltb. rewrite negb_false_iff. apply Qle_bool_iff.
Qed.

Lemma Qclip_range (q lo hi : Q) :
  (lo <= hi)%Q -> (lo <= Qclip q lo hi <= hi)%Q.
Proof.
  intro L. unfold Qclip.
  destruct (Qltb q lo) eqn:A.
  - destruct (Qltb hi lo) eqn:B.
    + apply Qltb_true in B. exfalso. apply (Qlt_not_le _ _ B L).
    + split; [apply Qle_refl | exact L].
  - apply Qltb_false in A.
    destruct (Qltb hi q) eqn:B.
    + split; [exact L | apply Qle_refl].
    + apply Qltb_false in B. split; assumption.
Qed.

Lemma Qclip_id (q lo hi : Q) :
  (lo <= q <= hi)%Q -> Qclip q lo hi = q.
Proof.
  intros [A B]. unfold Qclip.
  apply Qltb_false in A. rewrite A.
  apply Qltb_false in B. rewrite B. reflexivity.
Qed.

Lemma np_clip_range (x : pyfloat) (lo hi : Q) :
  (lo <= hi)%Q -> not_nan x = true ->
  exists q, np_clip x lo hi = FFin q /\ (lo <= q <= hi)%Q.
Proof.
  intros L N. destruct x as [q | [|] |]; simpl in *; try discriminate.
  - exists (Qclip q lo hi). split; [reflexivity | apply Qclip_range, L].
  - apply Qltb_false in L. rewrite L.
    exists lo. split; [reflexivity|].
    apply Qltb_false in L. split; [apply Qle_refl | exact L].
  - exists hi. split; [reflexivity|]. split; [exact L | apply Qle_refl].
Qed.

Lemma round_half_even_ge (k : Z) (q : Q) :
  (inject_Z k <= q)%Q -> k <= round_half_even q.
Proof.
  destruct q as [n d]. unfold Qle, round_half_even.
  cbn [Qnum Qden inject_Z]. intro H.
  pose proof (Z.div_mod n (Zpos d) ltac:(lia)) as D.
  pose proof (Z.mod_pos_bound n (Zpos d) ltac:(lia)) as B.
  assert (k <= n / Zpos d) by nia.
  repeat match goal with |- context [if ?c then _ else _] => destruct c end; lia.
Qed.

Lemma round_half_even_le (k : Z) (q : Q) :
  (q <= inject_Z k)%Q -> round_half_even q <= k.
Proof.
  destruct q as [n d]. unfold Qle, round_half_even.
  cbn [Qnum Qden inject_Z]. intro H.
  pose proof (Z.div_mod n (Zpos d) ltac:(lia)) as D.
  pose proof (Z.mod_pos_bound n (Zpos d) ltac:(lia)) as B.
  assert (n / Zpos d < k \/ (n / Zpos d = k /\ n mod Zpos d = 0)) as [L | [L R]]
    by nia.
  - repeat match goal with |- context [if ?c then _ else _] => destruct c end; lia.
  - rewrite R. destruct (2 * 0 <? Zpos d) eqn:C; [lia|].
    apply Z.ltb_ge in C. lia.
Qed.

(** Rounding to two places keeps a value between bounds that themselves have
    two places. *)
Lemma Qround2_range (a b : Z) (q : Q) :
  (a # 100 <= q <= b # 100)%Q -> (a # 100 <= Qround2 q <= b # 100)%Q.
Proof.
  intros [A B]. unfold Qround2.
  assert (a <= round_half_even (q * 100)) as A'.
  { apply round_half_even_ge. unfold Qle in *. simpl in *. lia. }
  assert (round_half_even (q * 100) <= b) as B'.
  { apply round_half_even_le. unfold Qle in *. simpl in *. lia. }
  unfold Qle. simpl. lia.
Qed.

Lemma within_spec (lo hi q : Q) :
  within lo hi (FFin q) = true <-> (lo <= q <= hi)%Q.
Proof.
  simpl. rewrite andb_true_iff, !Qle_bool_iff. reflexivity.
Qed.

(** An index that was clamped to a range with two-place bounds and then
    rounded is a finite float of that range. *)
Lemma round2_clip_within (x : pyfloat) (lo hi : Q) (a b : Z) :
  (lo == a # 100)%Q -> (hi == b # 100)%Q -> a <= b -> not_nan x = true ->
  within lo hi (round2 (np_clip x lo hi)) = true.
Proof.
  intros A B L N.
  destruct (np_clip_range x lo hi) as (q & -> & R).
  - rewrite A, B. unfold Qle. simpl. lia.
  - exact N.
  - rewrite A, B in R. apply Qround2_range in R.
    rewrite <- A, <- B in R. apply within_spec. exact R.
Qed.

Lemma np_clip_not_nan (x : pyfloat) (lo hi : Q) :
  not_nan x = true -> exists q, np_clip x lo hi = FFin q.
Proof.
  destruct x as [q | [|] |]; simpl; intro N; try discriminate; eauto.
Qed.

(** Whatever non-NaN weather the estimator is given, the four indexes it
    returns are finite and lie in their ranges. *)
Lemma estimate_fire_indexes_within (temp rh wind rain : pyfloat) :
  not_nan temp = true -> not_nan rh = true ->
  not_nan wind = true -> not_nan rain = true ->
  let '(ffmc, dmc, dc, isi) := estimate_fire_indexes temp rh wind rain in
  ffmc_ok ffmc = true /\ dmc_ok dmc = true /\
  dc_ok dc = true /\ isi_ok isi = true.
Proof.
  intros Nt Nr Nw Nn. unfold estimate_fire_indexes.
  destruct (np_clip_not_nan temp (-10) 60 Nt) as (t & ->).
  destruct (np_clip_not_nan rh 0 100 Nr) as (r & ->).
  destruct (np_clip_not_nan wind 0 50 Nw) as (w & ->).
  destruct (np_clip_not_nan rain 0 500 Nn) as (n & ->).
  unfold ffmc_ok, dmc_ok, dc_ok, isi_ok.
  repeat split.
  - apply (round2_clip_within _ _ _ 1870 9620); [reflexivity | reflexivity | lia | reflexivity].
  - apply (round2_clip_within _ _ _ 110 29130); [reflexivity | reflexivity | lia | reflexivity].
  - apply (round2_clip_within _ _ _ 790 86060); [reflexivity | reflexivity | lia | reflexivity].
  - apply (round2_clip_within _ _ _ 0 5610); [reflexivity | reflexivity | lia | reflexivity].
Qed.

Lemma round_half_even_near (q : Q) :
  (inject_Z (round_half_even q) - (1 # 2) <= q
   /\ q <= inject_Z (round_half_even q) + (1 # 2))%Q.
Proof.
  destruct q as [n d]. unfold round_half_even.
  cbn [Qnum Qden].
  pose proof (Z.div_mod n (Zpos d) ltac:(lia)) as D.
  pose proof (Z.mod_pos_bound n (Zpos d) ltac:(lia)) as B.
  destruct (2 * (n mod Zpos d) <? Zpos d) eqn:C1;
    [apply Z.ltb_lt in C1 | apply Z.ltb_ge in C1;
     destruct (Zpos d <? 2 * (n mod Zpos d)) eqn:C2;
       [apply Z.ltb_lt in C2 | apply Z.ltb_ge in C2;
        destruct (Z.even (n / Zpos d))]];
    unfold Qle, Qminus, Qplus, Qopp, inject_Z; cbn [Qnum Qden];
    split; nia.
Qed.


(* ================================================================== *)
(** ** Properties of the helpers *)

Section HelperProperties.

Variable E : Env.

(** C1. [score_to_bucket] returns for every integer score: Low/green up to
    3, Medium/yellow from 4 to 6, High/orange for 7 and 8, Extreme/red from
    9 on, also below 1 and above 10; 3, 4, 6, 7, 8 and 9 fall on the
    documented sides of the thresholds. *)
Theorem score_to_bucket_ladder :
  (forall s : Z,
      (s <= 3 /\ score_to_bucket E (VInt s) = Ret ("Low", "green")) \/
      (3 < s <= 6 /\ score_to_bucket E (VInt s) = Ret ("Medium", "yellow")) \/
      (6 < s <= 8 /\ score_to_bucket E (VInt s) = Ret ("High", "orange")) \/
      (8 < s /\ score_to_bucket E (VInt s) = Ret ("Extreme", "red")))
  /\ score_to_bucket E (VInt 3) = Ret ("Low", "green")
  /\ score_to_bucket E (VInt 4) = Ret ("Medium", "yellow")
  /\ score_to_bucket E (VInt 6) = Ret ("Medium", "yellow")
  /\ score_to_bucket E (VInt 7) = Ret ("High", "orange")
  /\ score_to_bucket E (VInt 8) = Ret ("High", "orange")
  /\ score_to_bucket E (VInt 9) = Ret ("Extreme", "red")
  /\ score_to_bucket E (VInt 0) = Ret ("Low", "green")
  /\ score_to_bucket E (VInt (-7)) = Ret ("Low", "green")
  /\ score_to_bucket E (VInt 11) = Ret ("Extreme", "red").
Proof.
  split; [|repeat split].
  intro s. unfold score_to_bucket, res_bind, py_int.
  destruct (s <=? 3) eqn:A; [apply Z.leb_le in A | apply Z.leb_gt in A].
  { left. split; [lia | reflexivity]. }
  destruct (s <=? 6) eqn:B; [apply Z.leb_le in B | apply Z.leb_gt in B].
  { right; left. split; [lia | reflexivity]. }
  destruct (s <=? 8) eqn:C; [apply Z.leb_le in C | apply Z.leb_gt in C].
  { right; right; left. split; [lia | reflexivity]. }
  right; right; right. split; [lia | reflexivity].
Qed.

End HelperProperties.


(* ================================================================== *)
(** ** Properties of the handler *)

(** One step through the handler: case analysis on the first statement whose
    result is still unknown. *)
Ltac scrutinee t :=
  match t with
  | context [match ?x with _ => _ end] =>
      lazymatch x with
      | context [match _ with _ => _ end] => fail
      | _ => x
      end
  end.

Ltac step_in H :=
  let t := type of H in
  let x := scrutinee t in
  destruct x eqn:?; cbv beta iota in H; try discriminate H.

Ltac run_handler H :=
  unfold predict, predict_data, hbind, uncaught, try_except, emit, hret in H;
  cbv beta iota in H;
  repeat step_in H.

Local Open Scope list_scope.

Section HandlerProperties.

Variable E : Env.

Lemma py_float_float (f : pyfloat) : py_float E (VFloat f) = Ret f.
Proof. reflexivity. Qed.

Lemma py_int_int (z : Z) : py_int E (VInt z) = Ret z.
Proof. reflexivity. Qed.

Lemma build_features_ok X_val Y_val month_enc day_enc ffmc dmc dc isi
    temp_val rh_val wind_val rain_val features :
  build_features E X_val Y_val month_enc day_enc ffmc dmc dc isi
                 temp_val rh_val wind_val rain_val = Ret features ->
  exists x y f4 f5 f6 f7,
    py_float E (VInt X_val) = Ret x /\ py_float E (VInt Y_val) = Ret y /\
    py_float E ffmc = Ret f4 /\ py_float E dmc = Ret f5 /\
    py_float E dc = Ret f6 /\ py_float E isi = Ret f7 /\
    features = [VFloat x; VFloat y; VInt month_enc; VInt day_enc;
                VFloat f4; VFloat f5; VFloat f6; VFloat f7;
                VFloat temp_val; VFloat rh_val;
                VFloat wind_val; VFloat rain_val].
Proof.
  unfold build_features. rewrite !py_float_float, !py_int_int.
  intro H.
  destruct (py_float E (VInt X_val)) as [x|]; [|discriminate H].
  destruct (py_float E (VInt Y_val)) as [y|]; [|discriminate H].
  destruct (py_float E ffmc) as [f4|]; [|discriminate H].
  destruct (py_float E dmc) as [f5|]; [|discriminate H].
  destruct (py_float E dc) as [f6|]; [|discriminate H].
  destruct (py_float E isi) as [f7|]; [|discriminate H].
  simpl in H. injection H as <-.
  exists x, y, f4, f5, f6, f7. repeat split; reflexivity.
Qed.

Lemma dict_get_object items key default :
  dict_get (VDict items) key default = Ret (get_or items key default).
Proof. reflexivity. Qed.

Lemma get_or_absent items key default :
  assoc key items = None -> get_or items key default = default.
Proof. unfold get_or. intros ->. reflexivity. Qed.

Lemma py_float_of_int z x :
  py_float E (VInt z) = Ret x -> x = FFin (inject_Z z).
Proof.
  unfold py_float. destruct (Z.abs z <? float_int_limit); congruence.
Qed.

(** C10. A request answered with 200 handed the model one vector of twelve
    values, in the order X, Y, encoded month, encoded day, FFMC, DMC, DC,
    ISI, temperature, relative humidity, wind, rain; a field the request
    does not have takes its default (X and Y 5, temperature 20.0, relative
    humidity 40.0, wind 1.0, rain 0.0), whether or not the indexes were
    estimated. *)
Theorem feature_vector_contract : forall data log r log',
  predict E (Some data) log = (Json200 r, log') ->
  exists items X_val Y_val month_enc day_enc ffmc dmc dc isi
         temp rh wind rain features,
    data = VDict items
    /\ (log' = CallModel features :: log
        \/ exists t h w n,
             log' = CallModel features :: CallEstimator t h w n :: log)
    /\ features =
         [VFloat (FFin (inject_Z X_val)); VFloat (FFin (inject_Z Y_val));
          VInt month_enc; VInt day_enc;
          VFloat ffmc; VFloat dmc; VFloat dc; VFloat isi;
          VFloat temp; VFloat rh; VFloat wind; VFloat rain]
    /\ List.length features = 12%nat
    /\ model_predict E features = Some (score r)
    /\ py_int E (get_or items "X" (VInt 5)) = Ret X_val
    /\ py_int E (get_or items "Y" (VInt 5)) = Ret Y_val
    /\ py_float E (get_or items "temp" (VFloat (FFin 20))) = Ret temp
    /\ py_float E (get_or items "RH" (VFloat (FFin 40))) = Ret rh
    /\ py_float E (get_or items "wind" (VFloat (FFin 1))) = Ret wind
    /\ py_float E (get_or items "rain" (VFloat (FFin 0))) = Ret rain
    /\ assoc "month_enc" (features_used r) = Some (VInt month_enc)
    /\ assoc "day_enc" (features_used r) = Some (VInt day_enc)
    /\ (exists v, assoc "FFMC" (features_used r) = Some v
                  /\ py_float E v = Ret ffmc)
    /\ (exists v, assoc "DMC" (features_used r) = Some v
                  /\ py_float E v = Ret dmc)
    /\ (exists v, assoc "DC" (features_used r) = Some v
                  /\ py_float E v = Ret dc)
    /\ (exists v, assoc "ISI" (features_used r) = Some v
                  /\ py_float E v = Ret isi)
    /\ (assoc "X" items = None -> X_val = 5)
    /\ (assoc "Y" items = None -> Y_val = 5)
    /\ (assoc "temp" items = None -> temp = FFin 20)
    /\ (assoc "RH" items = None -> rh = FFin 40)
    /\ (assoc "wind" items = None -> wind = FFin 1)
    /\ (assoc "rain" items = None -> rain = FFin 0).
Proof.
  intros data log r log' H.
  destruct data as [ | | | | | | items];
    try (unfold predict, predict_data, hbind, uncaught in H; simpl in H;
         discriminate H).
  run_handler H.
  all: injection H as <- <-.
  all: match goal with
       | B : build_features _ _ _ _ _ _ _ _ _ _ _ _ _ = Ret _ |- _ =>
           apply build_features_ok in B;
           destruct B as (x & y & f4 & f5 & f6 & f7 &
                          Bx & By & B4 & B5 & B6 & B7 & ->)
       end.
  all: apply py_float_of_int in Bx, By; subst x y.
  all: rewrite ?dict_get_object in *.
  all: repeat match goal with
         | G : Ret _ = Ret _ |- _ => injection G as <-
         end.
  all: unfold res_bind in *.
  all: do 14 eexists.
  all: split; [reflexivity|].
  all: split; [first [left; reflexivity | right; do 4 eexists; reflexivity]|].
  all: split; [reflexivity|].
  all: split; [reflexivity|].
  all: cbn [score features_used assoc String.eqb Ascii.eqb Bool.eqb].
  all: repeat match goal with
         | |- _ /\ _ => split
         | |- exists v, Some _ = Some v /\ _ => eexists; split; [reflexivity|]
         end.
  all: try eassumption.
  all: try reflexivity.
  all: intro A; rewrite (get_or_absent _ _ _ A) in *; simpl in *; congruence.
Qed.

(** What is known of a request that got as far as [model.predict]: the
    vector, the values behind its four index slots and where they came
    from. *)
Lemma model_reached items log o new features :
  predict E (Some (VDict items)) log = (o, new ++ log) ->
  In (CallModel features) new ->
  exists x y month_enc day_enc i4 i5 i6 i7 f4 f5 f6 f7 temp rh wind rain,
    features = [VFloat x; VFloat y; VInt month_enc; VInt day_enc;
                VFloat f4; VFloat f5; VFloat f6; VFloat f7;
                VFloat temp; VFloat rh; VFloat wind; VFloat rain]
    /\ py_float E i4 = Ret f4 /\ py_float E i5 = Ret f5
    /\ py_float E i6 = Ret f6 /\ py_float E i7 = Ret f7
    /\ (forall r, o = Json200 r ->
          assoc "FFMC" (features_used r) = Some i4
          /\ assoc "DMC" (features_used r) = Some i5
          /\ assoc "DC" (features_used r) = Some i6
          /\ assoc "ISI" (features_used r) = Some i7)
    /\ (if none_in (get_or items "FFMC" VNone) (get_or items "DMC" VNone)
                   (get_or items "DC" VNone) (get_or items "ISI" VNone)
        then exists t h w n,
            read_weather E (VDict items) = Ret (t, h, w, n)
            /\ new = [CallModel features; CallEstimator t h w n]
            /\ estimate_fire_indexes t h w n = (f4, f5, f6, f7)
            /\ i4 = VFloat f4 /\ i5 = VFloat f5
            /\ i6 = VFloat f6 /\ i7 = VFloat f7
        else new = [CallModel features]
             /\ i4 = get_or items "FFMC" VNone
             /\ i5 = get_or items "DMC" VNone
             /\ i6 = get_or items "DC" VNone
             /\ i7 = get_or items "ISI" VNone).
Proof.
  intros H Hin.
  unfold predict, predict_data, hbind, uncaught, try_except, emit, hret in H.
  cbn [dict_get res_bind] in H. cbv beta iota in H.
  repeat step_in H.
  all: injection H as Ho Hl.
  all: try (assert ([] = new) as <- by (apply (app_inv_tail log); exact Hl);
            destruct Hin).
  all: match type of Hl with
       | ?a :: ?b :: ?l = _ ++ ?l =>
           assert ([a; b] = new) as <- by (apply (app_inv_tail l); exact Hl)
       | ?a :: ?l = _ ++ ?l =>
           assert ([a] = new) as <- by (apply (app_inv_tail l); exact Hl)
       end.
  all: repeat match goal with
         | G : In _ (_ :: _) |- _ => destruct G as [G | G]
         | G : In _ [] |- _ => destruct G
         | G : CallModel _ = CallModel _ |- _ => injection G as ->
         | G : CallEstimator _ _ _ _ = CallModel _ |- _ => discriminate G
         end.
  all: match goal with
       | B : build_features _ _ _ _ _ _ _ _ _ _ _ _ _ = Ret _ |- _ =>
           apply build_features_ok in B;
           destruct B as (x & y & f4 & f5 & f6 & f7 &
                          Bx & By & B4 & B5 & B6 & B7 & ->)
       end.
  all: do 16 eexists.
  all: split; [reflexivity|].
  all: do 4 (split; [eassumption|]).
  all: split;
    [ intros r0 Hr; subst o; try discriminate Hr; injection Hr as <-;
      cbn; repeat split; reflexivity |].
  all: try (repeat split; reflexivity).
  all: do 4 eexists.
  all: split; [reflexivity|].
  all: split; [reflexivity|].
  all: rewrite !py_float_float in *.
  all: repeat match goal with
         | G : Ret _ = Ret _ |- _ => injection G as <-
         end.
  all: repeat split; try reflexivity; assumption.
Qed.

Lemma none_in_absent items :
  assoc "FFMC" items = None \/ assoc "DMC" items = None \/
  assoc "DC" items = None \/ assoc "ISI" items = None ->
  none_in (get_or items "FFMC" VNone) (get_or items "DMC" VNone)
          (get_or items "DC" VNone) (get_or items "ISI" VNone) = true.
Proof.
  unfold none_in, get_or.
  intros [A | [A | [A | A]]]; rewrite A; simpl;
    rewrite ?orb_true_r; reflexivity.
Qed.

Lemma none_in_supplied items v4 v5 v6 v7 :
  assoc "FFMC" items = Some v4 -> assoc "DMC" items = Some v5 ->
  assoc "DC" items = Some v6 -> assoc "ISI" items = Some v7 ->
  is_none v4 || is_none v5 || is_none v6 || is_none v7 = false ->
  none_in (get_or items "FFMC" VNone) (get_or items "DMC" VNone)
          (get_or items "DC" VNone) (get_or items "ISI" VNone) = false
  /\ get_or items "FFMC" VNone = v4 /\ get_or items "DMC" VNone = v5
  /\ get_or items "DC" VNone = v6 /\ get_or items "ISI" VNone = v7.
Proof.
  unfold none_in, get_or. intros -> -> -> -> H. repeat split. exact H.
Qed.


(** C2, as the handler has it. Of a request that reaches the model: indexes
    the estimator derived from weather that is not NaN lie in their ranges;
    indexes the request supplied are put in the vector as they were sent,
    coerced to float and not clamped. *)
Theorem estimated_indexes_in_range : forall items log o new features,
  predict E (Some (VDict items)) log = (o, new ++ log) ->
  In (CallModel features) new ->
  (assoc "FFMC" items = None \/ assoc "DMC" items = None \/
   assoc "DC" items = None \/ assoc "ISI" items = None ->
   exists t h w n,
     read_weather E (VDict items) = Ret (t, h, w, n)
     /\ (not_nan t && not_nan h && not_nan w && not_nan n = true ->
         indexes_in_range features = true))
  /\ (forall v4 v5 v6 v7,
        assoc "FFMC" items = Some v4 -> assoc "DMC" items = Some v5 ->
        assoc "DC" items = Some v6 -> assoc "ISI" items = Some v7 ->
        is_none v4 || is_none v5 || is_none v6 || is_none v7 = false ->
        exists f4 f5 f6 f7,
          py_float E v4 = Ret f4 /\ py_float E v5 = Ret f5
          /\ py_float E v6 = Ret f6 /\ py_float E v7 = Ret f7
          /\ indexes_in_range features
             = ffmc_ok f4 && dmc_ok f5 && dc_ok f6 && isi_ok f7).
Proof.
  intros items log o new features H Hin.
  destruct (model_reached _ _ _ _ _ H Hin)
    as (x & y & me & de & i4 & i5 & i6 & i7 & f4 & f5 & f6 & f7 &
        tv & rv & wv & nv & -> & P4 & P5 & P6 & P7 & U & G).
  split.
  - intro A. rewrite (none_in_absent _ A) in G.
    destruct G as (t & h & w & n & R & N & Es & _).
    exists t, h, w, n. split; [exact R|].
    intro Nn. apply andb_true_iff in Nn. destruct Nn as [Nn N4].
    apply andb_true_iff in Nn. destruct Nn as [Nn N3].
    apply andb_true_iff in Nn. destruct Nn as [N1 N2].
    pose proof (estimate_fire_indexes_within t h w n N1 N2 N3 N4) as W.
    rewrite Es in W. destruct W as (W4 & W5 & W6 & W7).
    unfold indexes_in_range, float_at. cbn [nth].
    rewrite W4, W5, W6, W7. reflexivity.
  - intros v4 v5 v6 v7 A4 A5 A6 A7 Hn.
    destruct (none_in_supplied _ _ _ _ _ A4 A5 A6 A7 Hn)
      as (Gf & <- & <- & <- & <-).
    rewrite Gf in G. destruct G as (N & -> & -> & -> & ->).
    exists f4, f5, f6, f7. repeat split; try assumption.
Qed.

(** C5, as the handler has it. Of a request answered with 200: when month
    or day is missing, both labels handed to the encoders are the lowercased
    abbreviations of the current UTC month and weekday, a supplied month or
    day being dropped; the supplied month and day are encoded only when the
    request has both. *)
Theorem month_day_default_together : forall items log r log',
  predict E (Some (VDict items)) log = (Json200 r, log') ->
  exists month_enc day_enc,
    assoc "month_enc" (features_used r) = Some (VInt month_enc)
    /\ assoc "day_enc" (features_used r) = Some (VInt day_enc)
    /\ (if is_none (get_or items "month" VNone)
           || is_none (get_or items "day" VNone)
        then encode_month_day E
               (VStr (lower (strftime_b (utc_month E))))
               (VStr (lower (strftime_a (utc_weekday E))))
             = Ret (month_enc, day_enc)
        else encode_month_day E (get_or items "month" VNone)
                              (get_or items "day" VNone)
             = Ret (month_enc, day_enc)).
Proof.
  intros items log r log' H.
  unfold predict, predict_data, hbind, uncaught, try_except, emit, hret in H.
  cbn [dict_get res_bind] in H. cbv beta iota in H.
  repeat step_in H.
  all: injection H as <- <-.
  all: do 2 eexists.
  all: split; [reflexivity|].
  all: split; [reflexivity|].
  all: match goal with
       | M : month_day_inputs _ _ _ = _ |- _ =>
           unfold month_day_inputs in M;
           destruct (is_none (get_or items "month" VNone)
                     || is_none (get_or items "day" VNone));
           injection M as <- <-; assumption
       end.
Qed.

Lemma index_of_bound label classes i :
  index_of label classes = Some i ->
  0 <= i < Z.of_nat (List.length classes)
  /\ nth_error classes (Z.to_nat i) = Some label.
Proof.
  revert i. induction classes as [|c rest IH]; intros i H; [discriminate H|].
  cbn [index_of] in H. destruct (String.eqb label c) eqn:Eq.
  - injection H as <-. apply String.eqb_eq in Eq. subst c.
    cbn [List.length]. split; [lia | reflexivity].
  - destruct (index_of label rest) as [j|]; [|discriminate H].
    injection H as <-. destruct (IH j eq_refl) as [B N].
    cbn [List.length]. split; [lia|].
    replace (Z.to_nat (Z.succ j)) with (S (Z.to_nat j)) by lia.
    exact N.
Qed.

(** C7, as the encoder has it. A textual month or day is encoded as its
    position among the classes of its encoder, below the size of the
    vocabulary; a month or day that is not textual is coerced with [int]
    and passed on as it is, whatever the size of the vocabulary. *)
Theorem encode_month_day_vocabulary : forall month day month_enc day_enc,
  encode_month_day E month day = Ret (month_enc, day_enc) ->
  match month with
  | VStr s => 0 <= month_enc < Z.of_nat (List.length (le_month E))
              /\ nth_error (le_month E) (Z.to_nat month_enc) = Some s
  | _ => py_int E month = Ret month_enc
  end
  /\ match day with
     | VStr s => 0 <= day_enc < Z.of_nat (List.length (le_day E))
                 /\ nth_error (le_day E) (Z.to_nat day_enc) = Some s
     | _ => py_int E day = Ret day_enc
     end.
Proof.
  intros month day month_enc day_enc H.
  unfold encode_month_day, res_bind in H.
  assert (forall classes s i, transform classes s = Ret i ->
            0 <= i < Z.of_nat (List.length classes)
            /\ nth_error classes (Z.to_nat i) = Some s) as T.
  { intros classes s i. unfold transform.
    destruct (index_of s classes) as [j|] eqn:I; [|discriminate].
    intro R. injection R as <-. apply index_of_bound, I. }
  destruct (match month with
            | VStr s => transform (le_month E) s
            | _ => py_int E month
            end) as [m|] eqn:M; [|discriminate H].
  destruct (match day with
            | VStr s => transform (le_day E) s
            | _ => py_int E day
            end) as [d|] eqn:D; [|discriminate H].
  injection H as <- <-.
  split.
  - destruct month; first [apply T, M | exact M].
  - destruct day; first [apply T, D | exact D].
Qed.

Lemma encode_unknown_label month day :
  unknown_label (le_month E) month = true
  \/ unknown_label (le_day E) day = true ->
  exists e, encode_month_day E month day = Raise e.
Proof.
  unfold encode_month_day, res_bind, unknown_label, transform.
  intros [U | U].
  - destruct month; try discriminate U.
    destruct (index_of s (le_month E)); [discriminate U|]. eauto.
  - destruct day; try discriminate U.
    destruct (index_of s (le_day E)); [discriminate U|].
    match goal with
    | |- exists e, match ?x with _ => _ end = _ => destruct x; eauto
    end.
Qed.

(** C8, as the handler has it. A request whose X and Y coerce to integers
    and that has both month and day, one of them a textual label its
    encoder does not know, is answered 400 with the message of the encoding
    failure, and [model.predict] is not called: the log of calls is left as
    it was. *)
Theorem unknown_label_rejected : forall items log X_val Y_val,
  py_int E (get_or items "X" (VInt 5)) = Ret X_val ->
  py_int E (get_or items "Y" (VInt 5)) = Ret Y_val ->
  is_none (get_or items "month" VNone)
  || is_none (get_or items "day" VNone) = false ->
  unknown_label (le_month E) (get_or items "month" VNone) = true
  \/ unknown_label (le_day E) (get_or items "day" VNone) = true ->
  exists e,
    predict E (Some (VDict items)) log = (JsonError 400 msg_encoding e, log).
Proof.
  intros items log X_val Y_val HX HY Hn HU.
  destruct (encode_unknown_label _ _ HU) as (e & He).
  exists e.
  unfold predict, predict_data, hbind, uncaught, try_except, emit, hret.
  cbn [dict_get res_bind]. rewrite HX, HY. cbv beta iota.
  unfold month_day_inputs. rewrite Hn, He. reflexivity.
Qed.

Lemma read_weather_raises items :
  (exists e, read_weather E (VDict items) = Raise e) <->
  is_ret (py_float E (get_or items "temp" VNone))
  && is_ret (py_float E (get_or items "RH" VNone))
  && is_ret (py_float E (get_or items "wind" VNone))
  && is_ret (py_float E (get_or items "rain" (VFloat (FFin 0)))) = false.
Proof.
  unfold read_weather. cbn [dict_get res_bind].
  destruct (py_float E (get_or items "temp" VNone));
    destruct (py_float E (get_or items "RH" VNone));
    destruct (py_float E (get_or items "wind" VNone));
    destruct (py_float E (get_or items "rain" (VFloat (FFin 0))));
    cbn; split; intro H; try reflexivity; try discriminate H; eauto;
    destruct H as (e' & H); discriminate H.
Qed.

(** C9, as the handler has it. A request that passes the coercion of X and Y
    and the encoding of month and day is answered with the missing
    meteorology message exactly when FFMC, DMC, DC and ISI are not all
    supplied and the [float] coercion of temp, RH, wind or of a supplied rain
    raises; a request without a rain field never fails on rain. *)
Theorem missing_meteorology_iff : forall items log X_val Y_val enc,
  py_int E (get_or items "X" (VInt 5)) = Ret X_val ->
  py_int E (get_or items "Y" (VInt 5)) = Ret Y_val ->
  (let '(month, day) := month_day_inputs E (get_or items "month" VNone)
                                         (get_or items "day" VNone) in
   encode_month_day E month day) = Ret enc ->
  ((exists e log',
       predict E (Some (VDict items)) log
       = (JsonError 400 msg_missing_met e, log'))
   <->
   none_in (get_or items "FFMC" VNone) (get_or items "DMC" VNone)
           (get_or items "DC" VNone) (get_or items "ISI" VNone) = true
   /\ is_ret (py_float E (get_or items "temp" VNone))
      && is_ret (py_float E (get_or items "RH" VNone))
      && is_ret (py_float E (get_or items "wind" VNone))
      && is_ret (py_float E (get_or items "rain" (VFloat (FFin 0)))) = false)
  /\ (assoc "rain" items = None ->
      is_ret (py_float E (get_or items "rain" (VFloat (FFin 0)))) = true).
Proof.
  intros items log X_val Y_val enc HX HY HE.
  split.
  - rewrite <- read_weather_raises. split.
    + intros (e & log' & H).
      unfold predict, predict_data, hbind, uncaught, try_except, emit, hret
        in H.
      cbn [dict_get res_bind] in H. cbv beta iota in H.
      repeat step_in H.
      all: try (injection H as H1 H2; discriminate H1).
      all: injection H as H1 H2.
      all: split; [reflexivity | eauto].
    + intros (G & e & R). exists e, log.
      unfold predict, predict_data, hbind, uncaught, try_except, emit, hret.
      cbn [dict_get res_bind]. rewrite HX, HY. cbv beta iota.
      destruct (month_day_inputs E (get_or items "month" VNone)
                                 (get_or items "day" VNone)) as [m d].
      rewrite HE. destruct enc as [me de]. cbv beta iota.
      rewrite G, R. reflexivity.
  - intro A. rewrite (get_or_absent _ _ _ A). reflexivity.
Qed.

End HandlerProperties.

(* ================================================================== *)
(** ** The properties on the example requests *)

Lemma estimated_indexes_in_range_witness :
  (predict Demo.env (Some Demo.weather_request) []
   = (Json200 {| score := 7; bucket := "High"; color := "orange";
                 features_used :=
                   [("X", VInt 4); ("Y", VInt 5);
                    ("month_enc", VInt 1); ("day_enc", VInt 3);
                    ("FFMC", Demo.num 73.98); ("DMC", Demo.num 92.62);
                    ("DC", Demo.num 147.09); ("ISI", Demo.num 7.83);
                    ("temp", Demo.num 33.1); ("RH", Demo.num 20);
                    ("wind", Demo.num 6.7); ("rain", Demo.num 0.0)] |},
      [CallModel [Demo.num 4; Demo.num 5; VInt 1; VInt 3;
                  Demo.num 73.98; Demo.num 92.62;
                  Demo.num 147.09; Demo.num 7.83;
                  Demo.num 33.1; Demo.num 20; Demo.num 6.7; Demo.num 0.0];
       CallEstimator (FFin 33.1) (FFin 20) (FFin 6.7) (FFin 0.0)] ++ []))
  /\ indexes_in_range
       [Demo.num 4; Demo.num 5; VInt 1; VInt 3;
        Demo.num 73.98; Demo.num 92.62; Demo.num 147.09; Demo.num 7.83;
        Demo.num 33.1; Demo.num 20; Demo.num 6.7; Demo.num 0.0] = true.
Proof.
  match goal with
  | |- ?A /\ _ => assert (Hrun : A) by (vm_compute; reflexivity)
  end.
  split; [exact Hrun|].
  destruct (estimated_indexes_in_range Demo.env _ [] _ _ _ Hrun
              (or_introl eq_refl)) as [Est _].
  destruct (Est (or_introl eq_refl)) as (t & h & w & n & R & Range).
  vm_compute in R. injection R as <- <- <- <-.
  apply Range. reflexivity.
Defined.

Lemma feature_vector_contract_witness :
  (exists r,
      predict Demo.env (Some Demo.indexes_request) []
      = (Json200 r,
         [CallModel [Demo.num 5; Demo.num 5; VInt 9; VInt 5;
                     Demo.num 85.0; Demo.num 50.0;
                     Demo.num 300.0; Demo.num 10.0;
                     Demo.num 20; Demo.num 40; Demo.num 1; Demo.num 0]]))
  /\ exists features rest,
      snd (predict Demo.env (Some Demo.indexes_request) [])
      = CallModel features :: rest
      /\ List.length features = 12%nat
      /\ float_at 8 features = FFin 20 /\ float_at 9 features = FFin 40
      /\ float_at 10 features = FFin 1 /\ float_at 11 features = FFin 0.
Proof.
  assert (exists r log', predict Demo.env (Some Demo.indexes_request) []
                         = (Json200 r, log')) as (r & log' & Hrun)
    by (do 2 eexists; vm_compute; reflexivity).
  split; [eexists; vm_compute; reflexivity|].
  destruct (feature_vector_contract Demo.env _ _ _ _ Hrun)
    as (items & X_val & Y_val & me & de & f4 & f5 & f6 & f7 &
        tv & rv & wv & nv & features & Hd & Hlog & Hf & Hlen & _ &
        _ & _ & _ & _ & _ & _ & _ & _ & _ & _ & _ & _ & _ & _ &
        Dt & Dr & Dw & Dn).
  injection Hd as <-.
  rewrite Hrun. cbn [snd].
  exists features.
  destruct Hlog as [-> | (t & h & w & n & ->)]; eexists;
    (split; [reflexivity|]); (split; [exact Hlen|]);
    rewrite Hf; cbn [float_at nth];
    rewrite (Dt eq_refl), (Dr eq_refl), (Dw eq_refl), (Dn eq_refl);
    repeat split.
Defined.


Lemma month_day_default_together_witness :
  (exists r log',
      predict Demo.env (Some Demo.month_only_request) [] = (Json200 r, log')
      /\ assoc "month_enc" (features_used r) = Some (VInt 9)
      /\ assoc "day_enc" (features_used r) = Some (VInt 5))
  /\ encode_month_day Demo.env (VStr "nov") (VStr "tue") = Ret (9, 5).
Proof.
  assert (exists r log',
             predict Demo.env (Some Demo.month_only_request) []
             = (Json200 r, log')
             /\ assoc "month_enc" (features_used r) = Some (VInt 9)
             /\ assoc "day_enc" (features_used r) = Some (VInt 5)) as Hrun
    by (do 2 eexists; vm_compute; repeat split; reflexivity).
  split; [exact Hrun|].
  destruct Hrun as (r & log' & Hrun & Hm & Hd).
  destruct (month_day_default_together Demo.env _ _ _ _ Hrun)
    as (me & de & Hm' & Hd' & Henc).
  rewrite Hm in Hm'. injection Hm' as <-.
  rewrite Hd in Hd'. injection Hd' as <-.
  exact Henc.
Defined.

Lemma encode_month_day_vocabulary_witness :
  encode_month_day Demo.env (VStr "aug") (VInt 3) = Ret (1, 3)
  /\ (0 <= 1 < Z.of_nat (List.length (le_month Demo.env))
      /\ nth_error (le_month Demo.env) (Z.to_nat 1) = Some "aug")
  /\ py_int Demo.env (VInt 3) = Ret 3.
Proof.
  split; [reflexivity|].
  exact (encode_month_day_vocabulary Demo.env (VStr "aug") (VInt 3) 1 3
           eq_refl).
Defined.

Lemma unknown_label_rejected_witness :
  py_int Demo.env (VInt 5) = Ret 5
  /\ unknown_label (le_month Demo.env) (VStr "xyz") = true
  /\ exists e,
      predict Demo.env (Some Demo.unknown_month_request) []
      = (JsonError 400 msg_encoding e, []).
Proof.
  split; [reflexivity|]. split; [reflexivity|].
  exact (unknown_label_rejected Demo.env
           [("month", VStr "xyz"); ("day", VStr "sun");
            ("temp", VInt 20); ("RH", VInt 40); ("wind", VInt 1)] [] 5 5
           eq_refl eq_refl eq_refl (or_introl eq_refl)).
Defined.

Lemma missing_meteorology_iff_witness :
  encode_month_day Demo.env (VStr "aug") (VStr "sun") = Ret (1, 3)
  /\ exists e log',
      predict Demo.env (Some Demo.bad_rain_request) []
      = (JsonError 400 msg_missing_met e, log').
Proof.
  split; [reflexivity|].
  destruct (missing_meteorology_iff Demo.env
              [("month", VStr "aug"); ("day", VStr "sun");
               ("temp", VInt 20); ("RH", VInt 40); ("wind", VInt 1);
               ("rain", VStr "abc")] [] 5 5 (1, 3)
              eq_refl eq_refl eq_refl) as [[_ Back] _].
  apply Back. split; reflexivity.
Defined.

(* ================================================================== *)
(** ** Where the handler departs from the specification *)

(** C2 as stated fails: supplied indexes reach the model unclamped.  With
    FFMC 1000 the request is answered 200 and slot 4 of the vector holds
    1000.0, above 96.2. *)
Lemma supplied_indexes_not_clamped :
  ~ (forall items log o new features,
        predict Demo.env (Some (VDict items)) log = (o, new ++ log) ->
        In (CallModel features) new ->
        indexes_in_range features = true).
Proof.
  intro Claim.
  assert (exists r,
             predict Demo.env (Some Demo.large_ffmc_request) []
             = (Json200 r,
                [CallModel [Demo.num 5; Demo.num 5; VInt 9; VInt 5;
                            Demo.num 1000; Demo.num 50;
                            Demo.num 300; Demo.num 10;
                            Demo.num 20; Demo.num 40;
                            Demo.num 1; Demo.num 0]] ++ []))
    as (r & Hrun) by (eexists; vm_compute; reflexivity).
  specialize (Claim _ [] _ _ _ Hrun (or_introl eq_refl)).
  vm_compute in Claim. discriminate Claim.
Qed.

(** C5 as stated fails: a month sent without a day is not the month that is
    encoded.  With month "aug" and no day, on a Tuesday in November, the
    encoded month is 9 (nov), and "aug" encodes to 1 whatever the day. *)
Lemma supplied_month_replaced :
  ~ (forall items log r log' month_enc,
        predict Demo.env (Some (VDict items)) log = (Json200 r, log') ->
        is_none (get_or items "month" VNone) = false ->
        assoc "month_enc" (features_used r) = Some (VInt month_enc) ->
        exists day day_enc,
          encode_month_day Demo.env (get_or items "month" VNone) day
          = Ret (month_enc, day_enc)).
Proof.
  intro Claim.
  assert (exists r log',
             predict Demo.env (Some Demo.month_only_request) []
             = (Json200 r, log')
             /\ assoc "month_enc" (features_used r) = Some (VInt 9))
    as (r & log' & Hrun & Hm)
    by (do 2 eexists; vm_compute; split; reflexivity).
  destruct (Claim _ [] _ _ 9 Hrun eq_refl Hm) as (day & de & Henc).
  unfold encode_month_day, res_bind in Henc.
  change (get_or _ "month" VNone) with (VStr "aug") in Henc.
  change (transform (le_month Demo.env) "aug") with (@Ret Z 1) in Henc.
  cbv beta iota in Henc.
  destruct (match day with
            | VStr s => transform (le_day Demo.env) s
            | _ => py_int Demo.env day
            end); [|discriminate Henc].
  injection Henc as H1 _. discriminate H1.
Qed.

(** C7 as stated fails: an integer month outside the vocabulary is passed
    through.  Month 99 is answered 200 with [month_enc] 99, the month
    encoder having twelve classes. *)
Lemma integer_month_not_checked :
  ~ (forall items log r log' month_enc,
        predict Demo.env (Some (VDict items)) log = (Json200 r, log') ->
        assoc "month_enc" (features_used r) = Some (VInt month_enc) ->
        0 <= month_enc < Z.of_nat (List.length (le_month Demo.env))).
Proof.
  intro Claim.
  assert (exists r log',
             predict Demo.env (Some Demo.month_99_request) []
             = (Json200 r, log')
             /\ assoc "month_enc" (features_used r) = Some (VInt 99))
    as (r & log' & Hrun & Hm)
    by (do 2 eexists; vm_compute; split; reflexivity).
  specialize (Claim _ [] _ _ 99 Hrun Hm).
  cbn in Claim. lia.
Qed.

(** C8 as stated fails: an unknown month label sent without a day is
    dropped with the missing day, the request is answered 200 and the model
    is called. *)
Lemma unknown_label_without_day_accepted :
  ~ (forall items log,
        unknown_label (le_month Demo.env) (get_or items "month" VNone) = true
        \/ unknown_label (le_day Demo.env) (get_or items "day" VNone) = true ->
        exists e,
          predict Demo.env (Some (VDict items)) log
          = (JsonError 400 msg_encoding e, log)).
Proof.
  intro Claim.
  destruct (Claim [("month", VStr "xyz");
                   ("temp", VInt 20); ("RH", VInt 40); ("wind", VInt 1)]
                  [] (or_introl eq_refl)) as (e & Hrun).
  vm_compute in Hrun. discriminate Hrun.
Qed.

(** C9 as stated fails: a rain that [float] rejects gives the missing
    meteorology answer although temperature, relative humidity and wind all
    coerce. *)
Lemma bad_rain_is_missing_meteorology :
  ~ (forall items log,
        (exists e log',
            predict Demo.env (Some (VDict items)) log
            = (JsonError 400 msg_missing_met e, log'))
        <->
        none_in (get_or items "FFMC" VNone) (get_or items "DMC" VNone)
                (get_or items "DC" VNone) (get_or items "ISI" VNone) = true
        /\ is_ret (py_float Demo.env (get_or items "temp" VNone))
           && is_ret (py_float Demo.env (get_or items "RH" VNone))
           && is_ret (py_float Demo.env (get_or items "wind" VNone))
           = false).
Proof.
  intro Claim.
  destruct (Claim [("month", VStr "aug"); ("day", VStr "sun");
                   ("temp", VInt 20); ("RH", VInt 40); ("wind", VInt 1);
                   ("rain", VStr "abc")] []) as [Forth _].
  destruct Forth as [_ Bad].
  - exists ValueError, []. vm_compute. reflexivity.
  - vm_compute in Bad. discriminate Bad.
Qed.

(** C6. A field that [int] or [float] rejects outside the [try] blocks is
    not turned into an answer: with X "abc", or with a supplied FFMC "abc",
    [ValueError] leaves the handler; a body that is not an object leaves it
    with [AttributeError]. *)
Theorem non_numeric_field_escapes :
  predict Demo.env (Some Demo.bad_X_request) [] = (Unhandled ValueError, [])
  /\ predict Demo.env (Some Demo.bad_ffmc_request) []
     = (Unhandled ValueError, [])
  /\ predict Demo.env (Some (VList [])) [] = (Unhandled AttributeError, []).
Proof.
  repeat split; vm_compute; reflexivity.
Qed.

(* ================================================================== *)
(** ** Further properties of [score_to_bucket] *)

Lemma Qtrunc_lt (q : Q) (k : Z) :
  0 < k -> (Qtrunc q < k <-> (q < inject_Z k)%Q).
Proof.
  intro K. destruct q as [n d]. unfold Qtrunc, Qlt. cbn [Qnum Qden inject_Z].
  pose proof (Z.quot_rem' n (Zpos d)) as D.
  destruct (Z.le_gt_cases 0 n) as [P | N].
  - pose proof (Z.rem_bound_pos n (Zpos d) P ltac:(lia)) as B. nia.
  - pose proof (Z.rem_bound_pos_neg n (Zpos d) ltac:(lia) ltac:(lia)) as B. nia.
Qed.

Section ScoreProperties.

Variable E : Env.

(** X1. A larger integer score is never put in a lower bucket. *)
Theorem score_to_bucket_monotone : forall s1 s2 : Z,
  s1 <= s2 ->
  exists b1 c1 b2 c2,
    score_to_bucket E (VInt s1) = Ret (b1, c1)
    /\ score_to_bucket E (VInt s2) = Ret (b2, c2)
    /\ bucket_rank b1 <= bucket_rank b2.
Proof.
  intros s1 s2 L. unfold score_to_bucket, res_bind, py_int.
  destruct (s1 <=? 3) eqn:A1; [|destruct (s1 <=? 6) eqn:B1;
                                 [|destruct (s1 <=? 8) eqn:C1]];
    (destruct (s2 <=? 3) eqn:A2; [|destruct (s2 <=? 6) eqn:B2;
                                   [|destruct (s2 <=? 8) eqn:C2]]);
    do 4 eexists; (split; [reflexivity|]); (split; [reflexivity|]);
    cbn; rewrite ?Z.leb_le, ?Z.leb_gt in *; lia.
Qed.

(** X2. [score_to_bucket] raises exactly what [int(score)] raises, and when
    [int(score)] returns it returns one of the four label and color pairs:
    Low with green, Medium with yellow, High with orange, Extreme with
    red. *)
Theorem score_to_bucket_pairs : forall score : pyval,
  match score_to_bucket E score with
  | Ret bc => In bc buckets /\ is_ret (py_int E score) = true
  | Raise e => py_int E score = Raise e
  end.
Proof.
  intro score. unfold score_to_bucket, res_bind.
  destruct (py_int E score) as [s|e]; [|reflexivity].
  destruct (s <=? 3); [|destruct (s <=? 6); [|destruct (s <=? 8)]];
    cbn; tauto.
Qed.

(** X3. A score that is a finite float is truncated toward zero before the
    thresholds are applied: below 4 it is Low (3.99 included), from 4 and
    below 7 Medium, from 7 and below 9 High, from 9 on Extreme. *)
Theorem score_to_bucket_float : forall q : Q,
  ((q < 4)%Q
   /\ score_to_bucket E (VFloat (FFin q)) = Ret ("Low", "green"))
  \/ ((4 <= q < 7)%Q
      /\ score_to_bucket E (VFloat (FFin q)) = Ret ("Medium", "yellow"))
  \/ ((7 <= q < 9)%Q
      /\ score_to_bucket E (VFloat (FFin q)) = Ret ("High", "orange"))
  \/ ((9 <= q)%Q
      /\ score_to_bucket E (VFloat (FFin q)) = Ret ("Extreme", "red")).
Proof.
  intro q. unfold score_to_bucket, res_bind, py_int.
  pose proof (Qtrunc_lt q 4 ltac:(lia)) as T4.
  pose proof (Qtrunc_lt q 7 ltac:(lia)) as T7.
  pose proof (Qtrunc_lt q 9 ltac:(lia)) as T9.
  change (inject_Z 4) with 4%Q in T4.
  change (inject_Z 7) with 7%Q in T7.
  change (inject_Z 9) with 9%Q in T9.
  destruct (Qtrunc q <=? 3) eqn:A; [apply Z.leb_le in A | apply Z.leb_gt in A].
  { left. split; [apply T4; lia | reflexivity]. }
  assert (4 <= q)%Q by (apply Qnot_lt_le; intro C; apply T4 in C; lia).
  destruct (Qtrunc q <=? 6) eqn:B; [apply Z.leb_le in B | apply Z.leb_gt in B].
  { right; left. split; [split; [assumption | apply T7; lia] | reflexivity]. }
  assert (7 <= q)%Q by (apply Qnot_lt_le; intro C; apply T7 in C; lia).
  destruct (Qtrunc q <=? 8) eqn:C; [apply Z.leb_le in C | apply Z.leb_gt in C].
  { right; right; left.
    split; [split; [assumption | apply T9; lia] | reflexivity]. }
  right; right; right. split; [|reflexivity].
  apply Qnot_lt_le; intro D; apply T9 in D; lia.
Qed.

End ScoreProperties.

Lemma score_to_bucket_monotone_witness :
  4 <= 9
  /\ exists b1 c1 b2 c2,
      score_to_bucket Demo.env (VInt 4) = Ret (b1, c1)
      /\ score_to_bucket Demo.env (VInt 9) = Ret (b2, c2)
      /\ bucket_rank b1 <= bucket_rank b2.
Proof.
  split; [lia|]. apply (score_to_bucket_monotone Demo.env 4 9). lia.
Defined.

(* ================================================================== *)
(** ** Further properties of [estimate_fire_indexes] *)

Lemma np_clip_nan_or_fin (x : pyfloat) (lo hi : Q) :
  (x = FNaN /\ np_clip x lo hi = FNaN)
  \/ (not_nan x = true /\ exists q, np_clip x lo hi = FFin q).
Proof.
  destruct x as [q | [|] |]; cbn; eauto.
Qed.

(** X4. NaN in any of the four weather inputs makes all four indexes NaN:
    the clamps do not hide it. *)
Theorem estimate_fire_indexes_nan : forall temp rh wind rain : pyfloat,
  not_nan temp && not_nan rh && not_nan wind && not_nan rain = false ->
  estimate_fire_indexes temp rh wind rain = (FNaN, FNaN, FNaN, FNaN).
Proof.
  intros temp rh wind rain H. unfold estimate_fire_indexes.
  destruct (np_clip_nan_or_fin temp (-10) 60) as [[-> ->] | [Nt (t & ->)]];
    destruct (np_clip_nan_or_fin rh 0 100) as [[-> ->] | [Nr (r & ->)]];
    destruct (np_clip_nan_or_fin wind 0 50) as [[-> ->] | [Nw (w & ->)]];
    destruct (np_clip_nan_or_fin rain 0 500) as [[-> ->] | [Nn (n & ->)]];
    try reflexivity.
  rewrite Nt, Nr, Nw, Nn in H. discriminate H.
Qed.

Lemma Qclip_idempotent (q lo hi : Q) :
  (lo <= hi)%Q -> Qclip (Qclip q lo hi) lo hi = Qclip q lo hi.
Proof.
  intro L. apply Qclip_id, Qclip_range, L.
Qed.

Lemma np_clip_idempotent (x : pyfloat) (lo hi : Q) :
  (lo <= hi)%Q -> np_clip (np_clip x lo hi) lo hi = np_clip x lo hi.
Proof.
  intro L.
  destruct (np_clip_nan_or_fin x lo hi) as [[-> _] | [N _]]; [reflexivity|].
  destruct (np_clip_range x lo hi L N) as (q & -> & R).
  cbn [np_clip]. rewrite (Qclip_id _ _ _ R). reflexivity.
Qed.

(** X5. The estimator sees its inputs only through the clamps: weather
    outside [-10, 60], [0, 100], [0, 50], [0, 500] (an infinity included)
    gives the indexes of the nearest weather inside. *)
Theorem estimate_fire_indexes_saturates : forall temp rh wind rain : pyfloat,
  estimate_fire_indexes temp rh wind rain
  = estimate_fire_indexes (np_clip temp (-10) 60) (np_clip rh 0 100)
                          (np_clip wind 0 50) (np_clip rain 0 500).
Proof.
  intros temp rh wind rain. unfold estimate_fire_indexes.
  rewrite !np_clip_idempotent by (unfold Qle; simpl; lia).
  reflexivity.
Qed.

Lemma estimate_fire_indexes_nan_witness :
  not_nan FNaN && not_nan (FFin 20) && not_nan (FFin 6.7) && not_nan (FFin 0)
  = false
  /\ estimate_fire_indexes FNaN (FFin 20) (FFin 6.7) (FFin 0)
     = (FNaN, FNaN, FNaN, FNaN).
Proof.
  split; [reflexivity|].
  apply (estimate_fire_indexes_nan FNaN (FFin 20) (FFin 6.7) (FFin 0)).
  reflexivity.
Defined.

Lemma round_half_even_cases (q : Q) :
  let n := Qnum q in
  let d := Zpos (Qden q) in
  exists f r,
    n = d * f + r /\ 0 <= r < d
    /\ ((2 * r < d /\ round_half_even q = f)
        \/ (d < 2 * r /\ round_half_even q = f + 1)
        \/ (2 * r = d
            /\ round_half_even q = if Z.even f then f else f + 1)).
Proof.
  intros n d. exists (n / d), (n mod d).
  split; [apply Z.div_mod; subst d; lia|].
  split; [apply Z.mod_pos_bound; subst d; lia|].
  unfold round_half_even. fold n. fold d.
  destruct (2 * (n mod d) <? d) eqn:A; [apply Z.ltb_lt in A; tauto|].
  apply Z.ltb_ge in A.
  destruct (d <? 2 * (n mod d)) eqn:B; [apply Z.ltb_lt in B; tauto|].
  apply Z.ltb_ge in B. right; right. split; [lia | reflexivity].
Qed.

Lemma round_half_even_half (q : Q) (k : Z) :
  (q == inject_Z k + (1 # 2))%Q ->
  round_half_even q = if Z.even k then k else k + 1.
Proof.
  intro H. destruct (round_half_even_cases q) as (f & r & D & B & C).
  destruct q as [n d]. unfold Qeq, Qplus, inject_Z in H.
  cbn [Qnum Qden] in *.
  assert (f = k) by nia. subst f.
  destruct C as [[C ->] | [[C ->] | [C ->]]]; [nia | nia | reflexivity].
Qed.

Lemma round_half_even_above (q : Q) (k : Z) :
  (inject_Z k < q)%Q -> (q <= inject_Z k + (1 # 2))%Q ->
  round_half_even q = k \/ (q == inject_Z k + (1 # 2))%Q.
Proof.
  intros L U. destruct (round_half_even_cases q) as (f & r & D & B & C).
  destruct q as [n d]. unfold Qeq, Qlt, Qle, Qplus, inject_Z in *.
  cbn [Qnum Qden] in *.
  assert (f = k) by nia. subst f.
  destruct C as [[C ->] | [[C ->] | [C ->]]];
    [left; reflexivity | nia | right; nia].
Qed.

Lemma round_half_even_mono (q1 q2 : Q) :
  (q1 <= q2)%Q -> round_half_even q1 <= round_half_even q2.
Proof.
  intro L.
  destruct (Qlt_le_dec (inject_Z (round_half_even q2)) q1) as [Above | Below];
    [|apply round_half_even_le, Below].
  destruct (round_half_even_near q2) as [_ U2].
  destruct (round_half_even_above q1 (round_half_even q2) Above) as [-> | T1];
    [lra | lia |].
  assert (q2 == inject_Z (round_half_even q2) + (1 # 2))%Q as T2 by lra.
  pose proof (round_half_even_half q1 _ T1) as R1.
  pose proof (round_half_even_half q2 _ T2) as R2.
  destruct (Z.even (round_half_even q2)); lia.
Qed.

Lemma Qround2_mono (q1 q2 : Q) :
  (q1 <= q2)%Q -> (Qround2 q1 <= Qround2 q2)%Q.
Proof.
  intro L. unfold Qround2.
  assert (round_half_even (q1 * 100) <= round_half_even (q2 * 100)) as M
    by (apply round_half_even_mono; lra).
  unfold Qle. cbn [Qnum Qden]. lia.
Qed.

Lemma Qclip_mono (q1 q2 lo hi : Q) :
  (q1 <= q2)%Q -> (Qclip q1 lo hi <= Qclip q2 lo hi)%Q.
Proof.
  intro L. unfold Qclip.
  destruct (Qltb q1 lo) eqn:A1; destruct (Qltb q2 lo) eqn:A2;
    rewrite ?Qltb_true, ?Qltb_false in *;
    repeat match goal with
      | |- context [Qltb ?a ?b] =>
          let C := fresh "C" in
          destruct (Qltb a b) eqn:C;
          rewrite ?Qltb_true, ?Qltb_false in C
      end; lra.
Qed.
